(** * ficti-bank-backend: account endpoints over stored procedures

    A shallow embedding of [app/services/account_service.py] and
    [app/api/v1/endpoints/accounts.py], with the response envelope of
    [app/schemas/util.py].

    Python [str] values are kept as the UTF-8 bytes of their code points
    (a Rocq [string]); a code point sequence starts with another exactly when
    its UTF-8 bytes do, so [str.startswith] compares bytes. *)

From Stdlib Require Import String Ascii List Bool ZArith Lia DecimalString.
Import ListNotations.
Open Scope string_scope.

(** ** Python string operations used by the source *)

Module PyStr.

(** [s.startswith(p)] *)
Fixpoint startswith (s p : string) {struct p} : bool :=
  match p with
  | EmptyString => true
  | String a p' =>
      match s with
      | EmptyString => false
      | String b s' => Ascii.eqb b a && startswith s' p'
      end
  end.

(** [A-Z] as bytes. *)
Definition is_ascii_upper (c : ascii) : bool :=
  ((65 <=? nat_of_ascii c) && (nat_of_ascii c <=? 90))%nat.

(** Second byte of the UTF-8 form of U+00C0..U+00DE, without the
    multiplication sign U+00D7 (which has no lower case). *)
Definition is_latin1_upper_tail (d : ascii) : bool :=
  ((128 <=? nat_of_ascii d) && (nat_of_ascii d <=? 158)
     && negb (nat_of_ascii d =? 151))%nat.

Definition add32 (c : ascii) : ascii := ascii_of_nat (nat_of_ascii c + 32).

Definition lower_ascii (c : ascii) : ascii :=
  if is_ascii_upper c then add32 c else c.

Definition lead_C3 : ascii := ascii_of_nat 195.
Definition lead_C4 : ascii := ascii_of_nat 196.
Definition tail_B0 : ascii := ascii_of_nat 176.

(** "i" followed by U+0307 (combining dot above), the lower case of U+0130. *)
Definition dotted_i : string :=
  String "i" (String (ascii_of_nat 204) (String (ascii_of_nat 135) EmptyString)).

(** [s.lower()] on the UTF-8 form, for Basic Latin and Latin-1 Supplement,
    and for U+0130, the one code point outside them whose lower case begins
    with a Basic Latin letter.  Other code points are passed through: none
    of them maps to a string beginning with one of the letters that the
    source compares against. *)
Fixpoint lower (s : string) : string :=
  match s with
  | EmptyString => EmptyString
  | String c s' =>
      if Ascii.eqb c lead_C3 then
        match s' with
        | String d s'' =>
            String c (String (if is_latin1_upper_tail d then add32 d else d)
                        (lower s''))
        | EmptyString => String c EmptyString
        end
      else if Ascii.eqb c lead_C4 then
        match s' with
        | String d s'' =>
            if Ascii.eqb d tail_B0 then dotted_i ++ lower s''
            else String c (String d (lower s''))
        | EmptyString => String c EmptyString
        end
      else String (lower_ascii c) (lower s')
  end.

(** [str(n)] for a non-negative [int]. *)
Definition str_of_nat (n : nat) : string :=
  NilZero.string_of_uint (Nat.to_uint n).

End PyStr.

(** The spec's words, "begins with Éxito in any letter case": one of the 32
    spellings of the five letters is a prefix of the message. *)
Definition Exito_spellings : list string :=
  flat_map (fun e =>
  flat_map (fun x =>
  flat_map (fun i =>
  flat_map (fun t =>
  map (fun o => e ++ x ++ i ++ t ++ o) ["O"; "o"])
    ["T"; "t"]) ["I"; "i"]) ["X"; "x"]) ["É"; "é"].

Definition begins_with_Exito_any_case (m : string) : bool :=
  existsb (fun spelling => PyStr.startswith m spelling) Exito_spellings.

(** ** Exceptions

    The handlers of the source only ever ask whether an exception is an
    instance of [ValueError] (the endpoints) or come from a failed attribute
    access (the create service).  Classes of the driver, of SQLAlchemy and of
    pydantic are [ForeignError]s; some of them derive from [ValueError]. *)

Inductive ExcClass : Type :=
| ExceptionCls
| ValueErrorCls
| AttributeErrorCls
| IndexErrorCls
| ForeignError (name : string) (derives_ValueError : bool).

Record PyException : Type := mkExc { exc_class : ExcClass; exc_str : string }.

Definition Exception (m : string) : PyException := mkExc ExceptionCls m.
Definition ValueError (m : string) : PyException := mkExc ValueErrorCls m.
Definition AttributeError (m : string) : PyException := mkExc AttributeErrorCls m.
Definition IndexError (m : string) : PyException := mkExc IndexErrorCls m.

(** [isinstance(e, ValueError)], the test behind [except ValueError]. *)
Definition isinstance_ValueError (e : PyException) : bool :=
  match exc_class e with
  | ValueErrorCls => true
  | ForeignError _ b => b
  | _ => false
  end.

Inductive Result (A : Type) : Type :=
| Ok (a : A)
| Raise (e : PyException).
Arguments Ok {A} a.
Arguments Raise {A} e.

(** ** Rows

    A row keeps its columns in order with their labels, so that it can be read
    by alias ([row.Mensaje]) and by position ([row[1]]); a value is a [str] or
    [None] (SQL NULL), the output parameters and the envelope's [codigo] being
    character data. *)

Definition Row : Type := list (string * option string).

Fixpoint getattr (r : Row) (name : string) : option (option string) :=
  match r with
  | [] => None
  | (k, v) :: r' => if String.eqb k name then Some v else getattr r' name
  end.

Definition getitem (r : Row) (i : nat) : option (option string) :=
  option_map snd (nth_error r i).

(** [.first()] on a result: the first row, or [None]. *)
Definition first (rows : list Row) : option Row := hd_error rows.

(** Python truth value of an [Optional[str]]. *)
Definition truthy (s : option string) : bool :=
  match s with
  | None => false
  | Some u => negb (String.eqb u "")
  end.

(** [fastapi.status] *)
Definition HTTP_200_OK : Z := 200.
Definition HTTP_201_CREATED : Z := 201.
Definition HTTP_400_BAD_REQUEST : Z := 400.
Definition HTTP_404_NOT_FOUND : Z := 404.
Definition HTTP_500_INTERNAL_SERVER_ERROR : Z := 500.

Section Accounts.

(** [app/schemas/account.py] is not among the sources: the type of the
    initial balance, the listing DTO and its validator are parameters. *)
Variable Decimal : Type.
Variable CuentaDetailsDTO : Type.
Variable model_validate : Row -> Result CuentaDetailsDTO.

Record CuentaCreationData : Type := {
  TipoCta : string;
  Moneda : string;
  SaldoInicial : Decimal;
  CodUsu : string
}.

Record CuentaEstadoUpdate : Type := {
  nro_cta : string;
  nuevo_estado : string;
  cod_usu_modifica : string
}.

(** *** The database session *)

(** The statements the services send, with their bound parameters. *)
Inductive Statement : Type :=
| Call_sp_InsertarNuevaCuenta
    (p_TipoCta p_Moneda : string) (p_Saldoni : Decimal) (p_CodUsu : string)
| Select_Out_NroCta_Mensaje
| Call_sp_ListarCuentas (p_CodUsu : option string)
| Call_sp_ActualizarEstadoCuenta (p_NroCta p_NuevoEstado p_CodUsuModifica : string)
| Select_Out_Mensaje.

Inductive Event : Type :=
| Executed (q : Statement)
| RolledBack.

(** A session is the server behind it, which answers a statement given
    everything the session did before, and the events so far (latest first). *)
Record Session : Type := {
  server : list Event -> Statement -> Result (list Row);
  events : list Event
}.

Definition record (ev : Event) (s : Session) : Session :=
  {| server := server s; events := ev :: events s |}.

(** State and exceptions of the service layer. *)
Definition Db (A : Type) : Type := Session -> Result A * Session.

Definition ret {A} (a : A) : Db A := fun s => (Ok a, s).
Definition raise {A} (e : PyException) : Db A := fun s => (Raise e, s).
Definition bind {A B} (m : Db A) (k : A -> Db B) : Db B :=
  fun s => match m s with
           | (Ok a, s') => k a s'
           | (Raise e, s') => (Raise e, s')
           end.
Definition lift {A} (r : Result A) : Db A := fun s => (r, s).

Notation "x <- m ;; k" := (bind m (fun x => k))
  (at level 61, m at next level, right associativity).
Notation "m ;;; k" := (bind m (fun _ => k))
  (at level 61, right associativity).

(** [session.execute(q, params)]: the statement is recorded whether the server
    answers with rows or with an exception. *)
Definition execute (q : Statement) : Db (list Row) :=
  fun s => (server s (events s) q, record (Executed q) s).

(** [session.rollback()], which is taken to succeed. *)
Definition rollback : Db unit := fun s => (Ok tt, record RolledBack s).

(** [try: body  except Exception as e: session.rollback(); raise e] *)
Definition except_rollback {A} (body : Db A) : Db A :=
  fun s => match body s with
           | (Ok a, s') => (Ok a, s')
           | (Raise e, s') => (Raise e, snd (rollback s'))
           end.

(** *** Service layer ([account_service.py]) *)

(** The dict [{"NroCta": ..., "MensajeSP": ...}] the services return. *)
Record ResultadoSP : Type := {
  NroCta : option string;
  MensajeSP : string
}.

(** [output_message.lower().startswith('éxito')] on a [str]. *)
Definition lower_startswith_exito (m : string) : bool :=
  PyStr.startswith (PyStr.lower m) "éxito".

(** [None.lower()]: a NULL message has no [lower]. *)
Definition NoneType_has_no_lower : PyException :=
  AttributeError "'NoneType' object has no attribute 'lower'".

(** Lines 39-45: the two columns by alias, and by position when an alias is
    missing. *)
Definition read_out_params (row : Row) : Result (option string * option string) :=
  match getattr row "NroCta", getattr row "Mensaje" with
  | Some nro_cta_generada, Some output_message =>
      Ok (nro_cta_generada, output_message)
  | _, _ =>
      match getitem row 0, getitem row 1 with
      | Some nro_cta_generada, Some output_message =>
          Ok (nro_cta_generada, output_message)
      | _, _ => Raise (IndexError "tuple index out of range")
      end
  end.

(** The [try] block of [insertar_nueva_cuenta_sp]. *)
Definition insertar_nueva_cuenta_sp_try (datos : CuentaCreationData)
  : Db ResultadoSP :=
  execute (Call_sp_InsertarNuevaCuenta
             (TipoCta datos) (Moneda datos) (SaldoInicial datos) (CodUsu datos)) ;;;
  rows <- execute Select_Out_NroCta_Mensaje ;;
  match first rows with
  | None =>
      raise (Exception "La base de datos no devolvió el resultado del OUT SELECT.")
  | Some out_params_result =>
      out <- lift (read_out_params out_params_result) ;;
      let '(nro_cta_generada, output_message) := out in
      match output_message with
      | None => raise NoneType_has_no_lower
      | Some m =>
          if negb (lower_startswith_exito m) then raise (ValueError m)
          else ret {| NroCta := nro_cta_generada; MensajeSP := m |}
      end
  end.

Definition insertar_nueva_cuenta_sp (datos : CuentaCreationData)
  : Db ResultadoSP :=
  except_rollback (insertar_nueva_cuenta_sp_try datos).

(** [[CuentaDetailsDTO.model_validate(row) for row in results]] *)
Fixpoint validate_rows (results : list Row) : Result (list CuentaDetailsDTO) :=
  match results with
  | [] => Ok []
  | row :: rest =>
      match model_validate row with
      | Raise e => Raise e
      | Ok dto =>
          match validate_rows rest with
          | Raise e => Raise e
          | Ok dtos => Ok (dto :: dtos)
          end
      end
  end.

(** Line 70: [cod_usu_input if cod_usu_input and cod_usu_input != '' else None] *)
Definition clean_cod_usu (cod_usu_input : option string) : option string :=
  if truthy cod_usu_input
     && negb (match cod_usu_input with Some u => String.eqb u "" | None => false end)
  then cod_usu_input else None.

Definition listar_cuentas_sp_try (p_cod_usu : option string)
  : Db (list CuentaDetailsDTO) :=
  results <- execute (Call_sp_ListarCuentas p_cod_usu) ;;
  lift (validate_rows results).

Definition listar_cuentas_sp (cod_usu_input : option string)
  : Db (list CuentaDetailsDTO) :=
  let p_cod_usu := clean_cod_usu cod_usu_input in
  except_rollback (listar_cuentas_sp_try p_cod_usu).

(** The [try] block of [actualizar_estado_cuenta_sp]; the message is read by
    alias only. *)
Definition actualizar_estado_cuenta_sp_try (datos : CuentaEstadoUpdate)
  : Db ResultadoSP :=
  execute (Call_sp_ActualizarEstadoCuenta
             (nro_cta datos) (nuevo_estado datos) (cod_usu_modifica datos)) ;;;
  rows <- execute Select_Out_Mensaje ;;
  match first rows with
  | None => raise (Exception "La base de datos no devolvió el mensaje de estado.")
  | Some out_params_result =>
      match getattr out_params_result "Mensaje" with
      | None => raise (AttributeError "Mensaje")
      | Some output_message =>
          match output_message with
          | None => raise NoneType_has_no_lower
          | Some m =>
              if negb (lower_startswith_exito m) then raise (ValueError m)
              else ret {| NroCta := Some (nro_cta datos); MensajeSP := m |}
          end
      end
  end.

Definition actualizar_estado_cuenta_sp (datos : CuentaEstadoUpdate)
  : Db ResultadoSP :=
  except_rollback (actualizar_estado_cuenta_sp_try datos).

(** *** API layer ([endpoints/accounts.py]) *)

(** [app/schemas/util.py]: the response envelope. *)
Record APIResponse : Type := {
  mensaje : string;
  codigo : option string;
  status_code : Z;
  result : option (list CuentaDetailsDTO)
}.

(** An endpoint function returns its model or raises [HTTPException] with the
    dumped model as [detail]. *)
Inductive Outcome : Type :=
| Returned (r : APIResponse)
| HTTPException (code : Z) (detail : APIResponse).

(** What an endpoint writes to the process console. *)
Inductive ConsoleLine : Type :=
| Print (label : string) (e : PyException)
| Traceback (e : PyException).

Record Handled : Type := {
  outcome : Outcome;
  session_after : Session;
  console : list ConsoleLine
}.

Definition crear_nueva_cuenta (session : Session) (datos_cuenta : CuentaCreationData)
  : Handled :=
  match insertar_nueva_cuenta_sp datos_cuenta session with
  | (Ok resultado_sp, s') =>
      {| outcome := Returned {| mensaje := MensajeSP resultado_sp;
                                codigo := NroCta resultado_sp;
                                status_code := HTTP_201_CREATED;
                                result := None |};
         session_after := s'; console := [] |}
  | (Raise e, s') =>
      if isinstance_ValueError e then
        let error_message := exc_str e in
        {| outcome := HTTPException HTTP_400_BAD_REQUEST
                        {| mensaje := error_message;
                           codigo := Some "";
                           status_code := HTTP_400_BAD_REQUEST;
                           result := None |};
           session_after := s'; console := [] |}
      else
        {| outcome := HTTPException HTTP_500_INTERNAL_SERVER_ERROR
                        {| mensaje := "Ocurrió un error interno del servidor.";
                           codigo := Some "";
                           status_code := HTTP_500_INTERNAL_SERVER_ERROR;
                           result := None |};
           session_after := s';
           console := [Print "🔴 OCURRIÓ UN ERROR INESPERADO:" e; Traceback e] |}
  end.

Definition listar_cuentas (session : Session) (cod_usu : option string)
  : Handled :=
  match listar_cuentas_sp cod_usu session with
  | (Ok lista_cuentas_dto, s') =>
      if match lista_cuentas_dto with [] => true | _ => false end
         && match cod_usu with Some _ => true | None => false end
         && negb (match cod_usu with Some u => String.eqb u "" | None => false end)
      then
        {| outcome := Returned
             {| mensaje := "No se encontraron cuentas para el usuario: "
                             ++ match cod_usu with Some u => u | None => "None" end
                             ++ ".";
                codigo := Some "LIST-OK-EMPTY";
                status_code := HTTP_200_OK;
                result := Some [] |};
           session_after := s'; console := [] |}
      else
        {| outcome := Returned
             {| mensaje := "Consulta exitosa. Se encontraron "
                             ++ PyStr.str_of_nat (length lista_cuentas_dto)
                             ++ " cuentas.";
                codigo := Some "LIST-OK";
                status_code := HTTP_200_OK;
                result := Some lista_cuentas_dto |};
           session_after := s'; console := [] |}
  | (Raise e, s') =>
      {| outcome := HTTPException HTTP_500_INTERNAL_SERVER_ERROR
           {| mensaje := "Ocurrió un error interno del servidor durante la consulta.";
              codigo := Some "SYS-500";
              status_code := HTTP_500_INTERNAL_SERVER_ERROR;
              result := None |};
         session_after := s';
         console := [Print "🔴 OCURRIÓ UN ERROR INESPERADO AL LISTAR CUENTAS:" e;
                     Traceback e] |}
  end.

Definition actualizar_estado (session : Session)
    (datos_actualizacion : CuentaEstadoUpdate) : Handled :=
  match actualizar_estado_cuenta_sp datos_actualizacion session with
  | (Ok resultado_sp, s') =>
      {| outcome := Returned {| mensaje := MensajeSP resultado_sp;
                                codigo := NroCta resultado_sp;
                                status_code := HTTP_200_OK;
                                result := None |};
         session_after := s'; console := [] |}
  | (Raise e, s') =>
      if isinstance_ValueError e then
        let error_message := exc_str e in
        let error_code :=
          if PyStr.startswith error_message "Error: No se encontró"
          then HTTP_404_NOT_FOUND else HTTP_400_BAD_REQUEST in
        {| outcome := HTTPException error_code
                        {| mensaje := error_message;
                           codigo := Some "";
                           status_code := error_code;
                           result := None |};
           session_after := s'; console := [] |}
      else
        {| outcome := HTTPException HTTP_500_INTERNAL_SERVER_ERROR
                        {| mensaje := "Ocurrió un error interno del servidor.";
                           codigo := Some "";
                           status_code := HTTP_500_INTERNAL_SERVER_ERROR;
                           result := None |};
           session_after := s';
           console := [Print "🔴 ERROR INESPERADO AL ACTUALIZAR ESTADO:" e;
                       Traceback e] |}
  end.

(** *** The routes

    The decorators fix the status of a returned model; a raised
    [HTTPException] answers with its own status and its [detail]. *)

Inductive Route : Type :=
| crearCuentasBancarias
| getCuentasBancarias
| updateEstadoCuenta.

Definition route_status_code (r : Route) : Z :=
  match r with
  | crearCuentasBancarias => HTTP_201_CREATED
  | getCuentasBancarias => HTTP_200_OK
  | updateEstadoCuenta => HTTP_200_OK
  end.

(** The HTTP status: the decorator's for a returned model, the exception's
    own otherwise. *)
Definition http_status (r : Route) (o : Outcome) : Z :=
  match o with
  | Returned _ => route_status_code r
  | HTTPException code _ => code
  end.

(** Modelled from the spec: the application and its exception handling are
    not among the sources; the envelope of an error response is the [detail]
    the endpoint raised, that of a success the returned model. *)
Definition envelope (o : Outcome) : APIResponse :=
  match o with
  | Returned r => r
  | HTTPException _ detail => detail
  end.

(** A request as an endpoint function receives it: the framework has checked
    the body or the query parameter before, and answers a request it refuses
    itself, without calling the function. *)
Inductive Request : Type :=
| POST_crear (datos_cuenta : CuentaCreationData)
| GET_listar (cod_usu : option string)
| PATCH_actualizar (datos_actualizacion : CuentaEstadoUpdate).

Definition route_of (q : Request) : Route :=
  match q with
  | POST_crear _ => crearCuentasBancarias
  | GET_listar _ => getCuentasBancarias
  | PATCH_actualizar _ => updateEstadoCuenta
  end.

Definition handle (session : Session) (q : Request) : Handled :=
  match q with
  | POST_crear datos_cuenta => crear_nueva_cuenta session datos_cuenta
  | GET_listar cod_usu => listar_cuentas session cod_usu
  | PATCH_actualizar datos_actualizacion =>
      actualizar_estado session datos_actualizacion
  end.

(** *** Scripted sessions, for running the endpoints on concrete replies *)

(** A fresh session whose server answers by the statement alone. *)
Definition scripted (script : Statement -> Result (list Row)) : Session :=
  {| server := fun _ q => script q; events := [] |}.

(** Every [CALL] succeeds without rows; the output [SELECT]s and the listing
    answer [rows]. *)
Definition answering (rows : list Row) : Session :=
  scripted (fun q =>
    match q with
    | Select_Out_NroCta_Mensaje | Select_Out_Mensaje | Call_sp_ListarCuentas _ =>
        Ok rows
    | _ => Ok []
    end).

(** A server that fails on every statement with [e]. *)
Definition failing (e : PyException) : Session := scripted (fun _ => Raise e).

Definition out_row (nro mensaje_sp : option string) : Row :=
  [("NroCta", nro); ("Mensaje", mensaje_sp)].

(** A small bank: what the output [SELECT]s answer depends on the [CALL] the
    session executed just before. *)
Definition banco : Session :=
  {| server := fun done q =>
       match q, done with
       | Select_Out_NroCta_Mensaje,
         Executed (Call_sp_InsertarNuevaCuenta _ _ _ cod) :: _ =>
           if String.eqb cod ""
           then Ok [out_row None (Some "Error: El usuario no existe.")]
           else Ok [out_row (Some "4001000123") (Some "ÉXITO: Cuenta creada.")]
       | Select_Out_Mensaje,
         Executed (Call_sp_ActualizarEstadoCuenta nro _ _) :: _ =>
           if String.eqb nro "4001000123"
           then Ok [[("Mensaje", Some "Éxito: Estado actualizado.")]]
           else Ok [[("Mensaje", Some "Error: No se encontró la cuenta.")]]
       | _, _ => Ok []
       end;
     events := [] |}.

Definition cuenta_de (cod : string) (saldo : Decimal) : CuentaCreationData :=
  {| TipoCta := "AH"; Moneda := "PEN"; SaldoInicial := saldo; CodUsu := cod |}.

Definition bloqueo_de (nro : string) : CuentaEstadoUpdate :=
  {| nro_cta := nro; nuevo_estado := "B"; cod_usu_modifica := "ADMIN" |}.

(** Two failures of the driver with nothing in common. *)
Definition conexion_perdida : PyException :=
  Exception "Lost connection to MySQL server during query".

Definition procedimiento_inexistente : PyException :=
  mkExc (ForeignError "OperationalError" false)
    "(1305) PROCEDURE sp_InsertarNuevaCuenta does not exist".

(** *** What a request found in the database *)

(** [session] answers [q] with [r] once it has executed [done] (latest first). *)
Definition answers (session : Session) (done : list Statement) (q : Statement)
    (r : Result (list Row)) : Prop :=
  server session (map Executed done ++ events session)%list q = r.

Definition call_insertar (datos : CuentaCreationData) : Statement :=
  Call_sp_InsertarNuevaCuenta
    (TipoCta datos) (Moneda datos) (SaldoInicial datos) (CodUsu datos).

Definition call_actualizar (datos : CuentaEstadoUpdate) : Statement :=
  Call_sp_ActualizarEstadoCuenta
    (nro_cta datos) (nuevo_estado datos) (cod_usu_modifica datos).

(** The create procedure ran and its output row carries [nro] and [msg]. *)
Definition create_reply (session : Session) (datos : CuentaCreationData)
    (nro msg : option string) : Prop :=
  exists called row rest,
    answers session [] (call_insertar datos) (Ok called) /\
    answers session [call_insertar datos] Select_Out_NroCta_Mensaje (Ok (row :: rest)) /\
    read_out_params row = Ok (nro, msg).

(** The update procedure ran and its output row carries [msg]. *)
Definition update_reply (session : Session) (datos : CuentaEstadoUpdate)
    (msg : option string) : Prop :=
  exists called row rest,
    answers session [] (call_actualizar datos) (Ok called) /\
    answers session [call_actualizar datos] Select_Out_Mensaje (Ok (row :: rest)) /\
    getattr row "Mensaje" = Some msg.

(** The procedure ran and the follow-up [SELECT] gave no row. *)
Definition create_no_output_row (session : Session) (datos : CuentaCreationData)
    : Prop :=
  exists called,
    answers session [] (call_insertar datos) (Ok called) /\
    answers session [call_insertar datos] Select_Out_NroCta_Mensaje (Ok []).

Definition update_no_output_row (session : Session) (datos : CuentaEstadoUpdate)
    : Prop :=
  exists called,
    answers session [] (call_actualizar datos) (Ok called) /\
    answers session [call_actualizar datos] Select_Out_Mensaje (Ok []).

(** The exception, if any, that the service behind a request ends in. *)
Definition service_exception (session : Session) (q : Request)
    : option PyException :=
  match q with
  | POST_crear datos =>
      match fst (insertar_nueva_cuenta_sp datos session) with
      | Raise e => Some e | Ok _ => None end
  | GET_listar cod_usu =>
      match fst (listar_cuentas_sp cod_usu session) with
      | Raise e => Some e | Ok _ => None end
  | PATCH_actualizar datos =>
      match fst (actualizar_estado_cuenta_sp datos session) with
      | Raise e => Some e | Ok _ => None end
  end.

(** The envelope of the 500 answer of each route. *)
Definition internal_error_envelope (r : Route) : APIResponse :=
  match r with
  | getCuentasBancarias =>
      {| mensaje := "Ocurrió un error interno del servidor durante la consulta.";
         codigo := Some "SYS-500";
         status_code := HTTP_500_INTERNAL_SERVER_ERROR;
         result := None |}
  | _ =>
      {| mensaje := "Ocurrió un error interno del servidor.";
         codigo := Some "";
         status_code := HTTP_500_INTERNAL_SERVER_ERROR;
         result := None |}
  end.

(** A service keeps the rollback discipline of its [try] block: what the block
    returns is returned with no rollback, what it raises is raised again after
    one rollback, and the block itself only executes statements. *)
Definition rollback_discipline {A} (block service : Db A) : Prop :=
  forall session,
    exists sent,
      let s1 := snd (block session) in
      events s1 = (map Executed sent ++ events session)%list /\
      server s1 = server session /\
      match fst (block session) with
      | Ok a => service session = (Ok a, s1)
      | Raise e =>
          service session = (Raise e, record RolledBack s1)
      end.


(** *** Further vocabulary *)

(** Whether an exception of the service reaches the last handler of the
    endpoint, [except Exception]: on the listing route, which has no other
    handler, every exception does; on the other two, those that
    [except ValueError] lets through. *)
Definition reaches_except_Exception (q : Request) (e : PyException) : bool :=
  match q with
  | GET_listar _ => true
  | POST_crear _ | PATCH_actualizar _ => negb (isinstance_ValueError e)
  end.

(** The spec's business error: the procedure ran and declared a failure by
    its message, which the service raised as [ValueError]. *)
Definition declared_by_procedure (session : Session) (q : Request)
    (e : PyException) : Prop :=
  match q with
  | POST_crear datos =>
      exists nro m, create_reply session datos nro (Some m) /\
                    begins_with_Exito_any_case m = false /\ e = ValueError m
  | GET_listar _ => False
  | PATCH_actualizar datos =>
      exists m, update_reply session datos (Some m) /\
                begins_with_Exito_any_case m = false /\ e = ValueError m
  end.

(** A validator for scripted listings: a row needs an account number; its
    error derives from [ValueError], as pydantic's does. *)
Definition valida_cuenta (row : Row) : Result Row :=
  match getattr row "NroCta" with
  | Some (Some _) => Ok row
  | _ => Raise (mkExc (ForeignError "ValidationError" true)
                  "1 validation error for CuentaDetailsDTO")
  end.

(** The statements a request can have sent when its service ends, latest
    first: the [CALL], and for a create or an update the output [SELECT] after
    it. *)
Definition round_trips (q : Request) : list (list Statement) :=
  match q with
  | POST_crear datos =>
      [[call_insertar datos]; [Select_Out_NroCta_Mensaje; call_insertar datos]]
  | GET_listar cod_usu => [[Call_sp_ListarCuentas (clean_cod_usu cod_usu)]]
  | PATCH_actualizar datos =>
      [[call_actualizar datos]; [Select_Out_Mensaje; call_actualizar datos]]
  end.

(** The events an endpoint adds for an outcome that sent [sent]. *)
Definition events_of (o : Outcome) (sent : list Statement) : list Event :=
  ((match o with Returned _ => [] | HTTPException _ _ => [RolledBack] end)
     ++ map Executed sent)%list.

(** A [ValueError] of the driver, and listing rows of which the second has no
    account number. *)
Definition valor_incorrecto : PyException :=
  mkExc (ForeignError "DataError" true)
    "(1366) Incorrect decimal value for column 'p_Saldoni'".

Definition dos_filas : list Row :=
  [[("NroCta", Some "4001000123"); ("Moneda", Some "PEN")];
   [("NroCta", Some "4001000124"); ("Moneda", Some "USD")]].

Definition fila_sin_cuenta : list Row :=
  [[("NroCta", Some "4001000123"); ("Moneda", Some "PEN")];
   [("NroCta", None); ("Moneda", Some "USD")]].

(** ** Strings *)

Lemma startswith_iff_app (s p : string) :
  PyStr.startswith s p = true <-> exists r, s = p ++ r.
Proof.
  revert s.
  induction p as [|a p IH]; intros s; simpl.
  - split; [intros _; now exists s | reflexivity].
  - destruct s as [|b s]; simpl.
    + split; [discriminate | intros [r Hr]; discriminate].
    + rewrite andb_true_iff, Ascii.eqb_eq, IH.
      split.
      * intros [-> [r ->]]. now exists r.
      * intros [r Hr]. injection Hr as -> ->. split; [reflexivity | now exists r].
Qed.

(** Case analysis on the first byte of a string under [lower]: the byte is
    split into its 256 values; lead bytes then need the byte that follows. *)
Ltac split_byte c := destruct c as [[] [] [] [] [] [] [] []].

Ltac lower_head_cases s H :=
  let c := fresh "c" in
  let s1 := fresh "s" in
  let d := fresh "d" in
  let s2 := fresh "s" in
  destruct s as [|c s1]; [discriminate H|];
  split_byte c; cbn in H;
  first
    [ discriminate H
    | destruct s1 as [|d s2]; cbn in H;
      [ discriminate H
      | first [ discriminate H
              | match type of H with
                | context [if ?b then _ else _] => destruct b
                end; cbn in H; discriminate H ] ]
    | idtac ].

Lemma lower_head_x (s p : string) :
  PyStr.startswith (PyStr.lower s) (String "x" p) = true ->
  exists c s', s = String c s' /\ (c = "X" \/ c = "x")%char /\
               PyStr.startswith (PyStr.lower s') p = true.
Proof.
  intros H. lower_head_cases s H.
  all: do 2 eexists; split; [reflexivity | split; [auto | exact H]].
Qed.


Lemma lower_head_t (s p : string) :
  PyStr.startswith (PyStr.lower s) (String "t" p) = true ->
  exists c s', s = String c s' /\ (c = "T" \/ c = "t")%char /\
               PyStr.startswith (PyStr.lower s') p = true.
Proof.
  intros H. lower_head_cases s H.
  all: do 2 eexists; split; [reflexivity | split; [auto | exact H]].
Qed.

Lemma lower_head_o (s p : string) :
  PyStr.startswith (PyStr.lower s) (String "o" p) = true ->
  exists c s', s = String c s' /\ (c = "O" \/ c = "o")%char /\
               PyStr.startswith (PyStr.lower s') p = true.
Proof.
  intros H. lower_head_cases s H.
  all: do 2 eexists; split; [reflexivity | split; [auto | exact H]].
Qed.

(** For "i" the byte after it matters: U+0130 lowers to "i" and U+0307. *)
Lemma lower_head_i_t (s p : string) :
  PyStr.startswith (PyStr.lower s) (String "i" (String "t" p)) = true ->
  exists c s', s = String c s' /\ (c = "I" \/ c = "i")%char /\
               PyStr.startswith (PyStr.lower s') (String "t" p) = true.
Proof.
  intros H. lower_head_cases s H.
  all: do 2 eexists; split; [reflexivity | split; [auto | exact H]].
Qed.

Lemma lower_head_e_acute (s p : string) :
  PyStr.startswith (PyStr.lower s) ("é" ++ p) = true ->
  exists e s', s = e ++ s' /\ (e = "É" \/ e = "é") /\
               PyStr.startswith (PyStr.lower s') p = true.
Proof.
  intros H. lower_head_cases s H.
  destruct s0 as [|d s2]; [discriminate H|].
  split_byte d; cbn in H; try discriminate H.
  - exists "é", s2. auto.
  - exists "É", s2. auto.
Qed.

Lemma lower_exito_spelling (m : string) :
  lower_startswith_exito m = true -> begins_with_Exito_any_case m = true.
Proof.
  unfold lower_startswith_exito. intros H.
  apply (lower_head_e_acute m "xito") in H. destruct H as (e & m1 & -> & He & H).
  apply lower_head_x in H. destruct H as (x & m2 & -> & Hx & H).
  apply lower_head_i_t in H. destruct H as (i & m3 & -> & Hi & H).
  apply lower_head_t in H. destruct H as (t & m4 & -> & Ht & H).
  apply lower_head_o in H. destruct H as (o & m5 & -> & Ho & _).
  destruct He as [-> | ->], Hx as [-> | ->], Hi as [-> | ->],
    Ht as [-> | ->], Ho as [-> | ->]; reflexivity.
Qed.

Lemma spelling_lower_exito (m : string) :
  begins_with_Exito_any_case m = true -> lower_startswith_exito m = true.
Proof.
  unfold begins_with_Exito_any_case. intros H.
  apply existsb_exists in H. destruct H as (v & Hin & Hv).
  apply startswith_iff_app in Hv. destruct Hv as [r ->].
  unfold lower_startswith_exito.
  cbn in Hin.
  repeat (destruct Hin as [<- | Hin]; [reflexivity|]).
  contradiction.
Qed.

(** The test of the source is the spec's "begins with Éxito in any case". *)
Lemma lower_startswith_exito_spec (m : string) :
  lower_startswith_exito m = begins_with_Exito_any_case m.
Proof.
  apply eq_true_iff_eq. split.
  - apply lower_exito_spelling.
  - apply spelling_lower_exito.
Qed.


(** ** Running the services on a known reply *)

Arguments lower_startswith_exito m : simpl never.

Lemma insertar_try_on_reply session datos nro m :
  create_reply session datos nro (Some m) ->
  insertar_nueva_cuenta_sp_try datos session =
    (if lower_startswith_exito m
     then Ok {| NroCta := nro; MensajeSP := m |}
     else Raise (ValueError m),
     record (Executed Select_Out_NroCta_Mensaje)
       (record (Executed (call_insertar datos)) session)).
Proof.
  intros (called & row & rest & H1 & H2 & H3).
  unfold answers in H1, H2. cbn in H1, H2.
  unfold insertar_nueva_cuenta_sp_try, bind, execute, lift.
  fold (call_insertar datos). rewrite H1. cbn. rewrite H2. cbn. rewrite H3.
  destruct (lower_startswith_exito m); reflexivity.
Qed.

Lemma actualizar_try_on_reply session datos m :
  update_reply session datos (Some m) ->
  actualizar_estado_cuenta_sp_try datos session =
    (if lower_startswith_exito m
     then Ok {| NroCta := Some (nro_cta datos); MensajeSP := m |}
     else Raise (ValueError m),
     record (Executed Select_Out_Mensaje)
       (record (Executed (call_actualizar datos)) session)).
Proof.
  intros (called & row & rest & H1 & H2 & H3).
  unfold answers in H1, H2. cbn in H1, H2.
  unfold actualizar_estado_cuenta_sp_try, bind, execute, lift.
  fold (call_actualizar datos). rewrite H1. cbn. rewrite H2. cbn. rewrite H3.
  destruct (lower_startswith_exito m); reflexivity.
Qed.

(** ** The create endpoint *)

(** C1: when the reply message of the create procedure begins with "Éxito" in
    any letter case, the endpoint answers 201 with the procedure's message as
    [mensaje] and its output account number as [codigo]; and the service takes
    a message for a success exactly when its lower-cased form starts with
    "éxito". *)
Theorem crear_exito_201 session datos (nro : option string) (m : string) :
  create_reply session datos nro (Some m) ->
  (begins_with_Exito_any_case m = true ->
   outcome (crear_nueva_cuenta session datos) =
     Returned {| mensaje := m; codigo := nro;
                 status_code := 201; result := None |} /\
   http_status crearCuentasBancarias (outcome (crear_nueva_cuenta session datos))
     = 201%Z) /\
  ((exists r, fst (insertar_nueva_cuenta_sp datos session) = Ok r) <->
   PyStr.startswith (PyStr.lower m) "éxito" = true).
Proof.
  intros Hreply.
  pose proof (insertar_try_on_reply _ _ _ _ Hreply) as Hrun.
  split.
  - intros Hm. rewrite <- lower_startswith_exito_spec in Hm.
    unfold crear_nueva_cuenta, insertar_nueva_cuenta_sp, except_rollback.
    rewrite Hrun, Hm. cbn. split; reflexivity.
  - unfold insertar_nueva_cuenta_sp, except_rollback. rewrite Hrun.
    fold (lower_startswith_exito m).
    destruct (lower_startswith_exito m); cbn.
    + split; [reflexivity | intros _; eexists; reflexivity].
    + split; [intros [r Hr]; discriminate Hr | discriminate].
Qed.

(** C2: when the reply message of the create procedure does not begin with
    "éxito" in any letter case, the service raises [ValueError] with that
    message and the endpoint answers 400 with the message as [mensaje]. *)
Theorem crear_error_400 session datos (nro : option string) (m : string) :
  create_reply session datos nro (Some m) ->
  begins_with_Exito_any_case m = false ->
  fst (insertar_nueva_cuenta_sp datos session) = Raise (ValueError m) /\
  outcome (crear_nueva_cuenta session datos) =
    HTTPException 400 {| mensaje := m; codigo := Some "";
                         status_code := 400; result := None |} /\
  http_status crearCuentasBancarias (outcome (crear_nueva_cuenta session datos))
    = 400%Z.
Proof.
  intros Hreply Hm. rewrite <- lower_startswith_exito_spec in Hm.
  pose proof (insertar_try_on_reply _ _ _ _ Hreply) as Hrun.
  unfold crear_nueva_cuenta, insertar_nueva_cuenta_sp, except_rollback.
  rewrite Hrun, Hm. cbn. repeat split; reflexivity.
Qed.

(** ** The status-update endpoint *)

(** C3: when the reply of the update procedure is not a success, the endpoint
    answers 404 if the text starts with "Error: No se encontró" and 400
    otherwise, with the reply text as [mensaje] in both cases. *)
Theorem actualizar_error_404_400 session datos (m : string) :
  update_reply session datos (Some m) ->
  begins_with_Exito_any_case m = false ->
  let code := if PyStr.startswith m "Error: No se encontró"
              then 404%Z else 400%Z in
  outcome (actualizar_estado session datos) =
    HTTPException code {| mensaje := m; codigo := Some "";
                          status_code := code; result := None |} /\
  http_status updateEstadoCuenta (outcome (actualizar_estado session datos)) = code.
Proof.
  intros Hreply Hm code. rewrite <- lower_startswith_exito_spec in Hm.
  pose proof (actualizar_try_on_reply _ _ _ Hreply) as Hrun.
  unfold actualizar_estado, actualizar_estado_cuenta_sp, except_rollback.
  rewrite Hrun, Hm. cbn. split; reflexivity.
Qed.


(** ** The listing endpoint *)

Lemma clean_cod_usu_filter (u : string) :
  u <> "" -> clean_cod_usu (Some u) = Some u.
Proof.
  intros Hu. unfold clean_cod_usu, truthy.
  destruct (String.eqb_spec u ""); [contradiction | reflexivity].
Qed.

(** C4: a listing with a filter that is neither null nor empty, for which the
    procedure yields no rows, answers 200 with code "LIST-OK-EMPTY" and an
    empty result list. *)
Theorem listar_filtro_sin_filas session (u : string) :
  u <> "" ->
  answers session [] (Call_sp_ListarCuentas (Some u)) (Ok []) ->
  outcome (listar_cuentas session (Some u)) =
    Returned {| mensaje := "No se encontraron cuentas para el usuario: " ++ u ++ ".";
                codigo := Some "LIST-OK-EMPTY";
                status_code := 200;
                result := Some [] |} /\
  http_status getCuentasBancarias (outcome (listar_cuentas session (Some u)))
    = 200%Z.
Proof.
  intros Hu Hrows. unfold answers in Hrows. cbn in Hrows.
  unfold listar_cuentas, listar_cuentas_sp, except_rollback,
    listar_cuentas_sp_try, bind, execute, lift.
  rewrite (clean_cod_usu_filter u Hu), Hrows. cbn.
  destruct (String.eqb_spec u ""); [contradiction | cbn].
  split; reflexivity.
Qed.

(** C5: whatever the database answers, a listing with the empty string as
    filter gives the response of a listing without filter: the service sends
    null for both, and the endpoint's empty-result case applies to neither. *)
Theorem listar_filtro_vacio_es_sin_filtro session :
  clean_cod_usu (Some "") = None /\
  clean_cod_usu None = None /\
  listar_cuentas session (Some "") = listar_cuentas session None.
Proof.
  split; [reflexivity | split; [reflexivity|]].
  unfold listar_cuentas, listar_cuentas_sp. cbn.
  destruct (except_rollback (listar_cuentas_sp_try None) session) as [[dtos | e] s'].
  - destruct dtos; reflexivity.
  - reflexivity.
Qed.


(** ** Unclassified exceptions *)

Lemma handle_unclassified session q e :
  service_exception session q = Some e ->
  reaches_except_Exception q e = true ->
  outcome (handle session q) =
    HTTPException 500 (internal_error_envelope (route_of q)).
Proof.
  destruct q as [datos | cod_usu | datos]; cbn;
    unfold crear_nueva_cuenta, listar_cuentas, actualizar_estado.
  - destruct (insertar_nueva_cuenta_sp datos session) as [[r | e'] s']; cbn;
      [discriminate|].
    intros [= ->] He. apply negb_true_iff in He. rewrite He. reflexivity.
  - destruct (listar_cuentas_sp cod_usu session) as [[r | e'] s']; cbn;
      [discriminate|].
    intros _ _. reflexivity.
  - destruct (actualizar_estado_cuenta_sp datos session) as [[r | e'] s']; cbn;
      [discriminate|].
    intros [= ->] He. apply negb_true_iff in He. rewrite He. reflexivity.
Qed.


(** ** The envelope *)

(** C7: every outcome of every endpoint, returned or raised, carries the
    envelope record, and the [status_code] in it is the HTTP status of the
    response, which is one of 200, 201, 400, 404 and 500. *)
Theorem envelope_status_is_http_status session q :
  status_code (envelope (outcome (handle session q))) =
    http_status (route_of q) (outcome (handle session q)) /\
  In (http_status (route_of q) (outcome (handle session q)))
     [200; 201; 400; 404; 500]%Z.
Proof.
  destruct q as [datos | cod_usu | datos]; cbn;
    unfold crear_nueva_cuenta, listar_cuentas, actualizar_estado.
  - destruct (insertar_nueva_cuenta_sp datos session) as [[r | e] s'];
      [|destruct (isinstance_ValueError e)]; cbn; intuition.
  - destruct (listar_cuentas_sp cod_usu session) as [[r | e] s']; cbn;
      [|intuition].
    destruct (_ && _); cbn; intuition.
  - destruct (actualizar_estado_cuenta_sp datos session) as [[r | e] s'];
      [|destruct (isinstance_ValueError e);
        [destruct (PyStr.startswith (exc_str e) _)|]]; cbn; intuition.
Qed.


(** ** Rollback *)

Lemma except_rollback_discipline {A} (block : Db A) :
  (forall session, exists sent,
      events (snd (block session)) = (map Executed sent ++ events session)%list /\
      server (snd (block session)) = server session) ->
  rollback_discipline block (except_rollback block).
Proof.
  intros Hblock session. destruct (Hblock session) as (sent & Hev & Hsrv).
  exists sent. cbn. unfold except_rollback.
  destruct (block session) as [[a | e] s1]; cbn in *; auto.
Qed.

Ltac run_block :=
  repeat match goal with
    | |- context [match ?x with _ => _ end] => destruct x
    end; cbn.

Lemma insertar_try_executes datos session :
  exists sent,
    events (snd (insertar_nueva_cuenta_sp_try datos session)) =
      (map Executed sent ++ events session)%list /\
    server (snd (insertar_nueva_cuenta_sp_try datos session)) = server session.
Proof.
  unfold insertar_nueva_cuenta_sp_try, bind, execute, lift, raise, ret. cbn.
  fold (call_insertar datos).
  destruct (server session (events session) (call_insertar datos)); cbn.
  - exists [Select_Out_NroCta_Mensaje; call_insertar datos]. run_block; auto.
  - exists [call_insertar datos]. auto.
Qed.

Lemma listar_try_executes p_cod_usu session :
  exists sent,
    events (snd (listar_cuentas_sp_try p_cod_usu session)) =
      (map Executed sent ++ events session)%list /\
    server (snd (listar_cuentas_sp_try p_cod_usu session)) = server session.
Proof.
  unfold listar_cuentas_sp_try, bind, execute, lift. cbn.
  exists [Call_sp_ListarCuentas p_cod_usu]. run_block; auto.
Qed.

Lemma actualizar_try_executes datos session :
  exists sent,
    events (snd (actualizar_estado_cuenta_sp_try datos session)) =
      (map Executed sent ++ events session)%list /\
    server (snd (actualizar_estado_cuenta_sp_try datos session)) = server session.
Proof.
  unfold actualizar_estado_cuenta_sp_try, bind, execute, lift, raise, ret. cbn.
  fold (call_actualizar datos).
  destruct (server session (events session) (call_actualizar datos)); cbn.
  - exists [Select_Out_Mensaje; call_actualizar datos]. run_block; auto.
  - exists [call_actualizar datos]. auto.
Qed.

(** C8: each of the three services returns what its [try] block returns, with
    no rollback, and raises again the exception its [try] block raised,
    business error or not, after rolling the session back once; before that
    the session only executed statements. *)
Theorem servicios_rollback_y_relanzan
    (datos_cuenta : CuentaCreationData) (cod_usu_input : option string)
    (datos_estado : CuentaEstadoUpdate) :
  rollback_discipline (insertar_nueva_cuenta_sp_try datos_cuenta)
    (insertar_nueva_cuenta_sp datos_cuenta) /\
  rollback_discipline (listar_cuentas_sp_try (clean_cod_usu cod_usu_input))
    (listar_cuentas_sp cod_usu_input) /\
  rollback_discipline (actualizar_estado_cuenta_sp_try datos_estado)
    (actualizar_estado_cuenta_sp datos_estado).
Proof.
  split; [|split]; apply except_rollback_discipline; intros session.
  - apply insertar_try_executes.
  - apply listar_try_executes.
  - apply actualizar_try_executes.
Qed.

(** ** A missing output row *)

(** C9: when the follow-up [SELECT] of a create or an update gives no row, the
    service raises an exception that is not a [ValueError], and the endpoint
    answers 500 (so neither 400 nor 404). *)
Theorem sin_fila_de_salida_500 session :
  (forall datos,
      create_no_output_row session datos ->
      exists e,
        fst (insertar_nueva_cuenta_sp datos session) = Raise e /\
        isinstance_ValueError e = false /\
        outcome (crear_nueva_cuenta session datos) =
          HTTPException 500 (internal_error_envelope crearCuentasBancarias) /\
        http_status crearCuentasBancarias
          (outcome (crear_nueva_cuenta session datos)) = 500%Z) /\
  (forall datos,
      update_no_output_row session datos ->
      exists e,
        fst (actualizar_estado_cuenta_sp datos session) = Raise e /\
        isinstance_ValueError e = false /\
        outcome (actualizar_estado session datos) =
          HTTPException 500 (internal_error_envelope updateEstadoCuenta) /\
        http_status updateEstadoCuenta
          (outcome (actualizar_estado session datos)) = 500%Z).
Proof.
  split; intros datos (called & H1 & H2); unfold answers in H1, H2; cbn in H1, H2.
  - exists (Exception "La base de datos no devolvió el resultado del OUT SELECT.").
    unfold crear_nueva_cuenta, insertar_nueva_cuenta_sp, except_rollback,
      insertar_nueva_cuenta_sp_try, bind, execute, lift, raise.
    fold (call_insertar datos). rewrite H1. cbn. rewrite H2. cbn.
    repeat split; reflexivity.
  - exists (Exception "La base de datos no devolvió el mensaje de estado.").
    unfold actualizar_estado, actualizar_estado_cuenta_sp, except_rollback,
      actualizar_estado_cuenta_sp_try, bind, execute, lift, raise.
    fold (call_actualizar datos). rewrite H1. cbn. rewrite H2. cbn.
    repeat split; reflexivity.
Qed.

(** ** The reference code of an update *)

Lemma actualizar_try_NroCta datos session r s' :
  actualizar_estado_cuenta_sp_try datos session = (Ok r, s') ->
  NroCta r = Some (nro_cta datos).
Proof.
  unfold actualizar_estado_cuenta_sp_try, bind, execute, lift, raise, ret. cbn.
  repeat match goal with
    | |- context [match ?x with _ => _ end] => destruct x
    end; cbn; intros [= <- _]; reflexivity.
Qed.

(** C10: on every successful status update the [codigo] of the envelope is the
    account number of the request body; the only column read back from the
    procedure is its message. *)
Theorem actualizar_codigo_es_nro_cta session datos (r : APIResponse) :
  outcome (actualizar_estado session datos) = Returned r ->
  codigo r = Some (nro_cta datos) /\
  status_code r = 200%Z /\
  fst (actualizar_estado_cuenta_sp datos session) =
    Ok {| NroCta := Some (nro_cta datos); MensajeSP := mensaje r |}.
Proof.
  unfold actualizar_estado, actualizar_estado_cuenta_sp, except_rollback.
  destruct (actualizar_estado_cuenta_sp_try datos session) as [[sp | e] s1] eqn:Hrun;
    cbn.
  - intros [= <-]. cbn. pose proof (actualizar_try_NroCta _ _ _ _ Hrun) as Hn.
    destruct sp as [n msg]; cbn in *. subst n. auto.
  - destruct (isinstance_ValueError e); cbn; discriminate.
Qed.

(** ** The success test, the output row and the listing rows *)

(** X1: a message passes the success test of the services exactly when it is
    one of the 32 case spellings of "Éxito" followed by any text. *)
Theorem exito_sii_deletreo (m : string) :
  lower_startswith_exito m = true <->
  exists spelling rest, In spelling Exito_spellings /\ m = spelling ++ rest.
Proof.
  rewrite lower_startswith_exito_spec. unfold begins_with_Exito_any_case.
  rewrite existsb_exists. split.
  - intros (v & Hin & Hv). apply startswith_iff_app in Hv.
    destruct Hv as [r ->]. now exists v, r.
  - intros (v & r & Hin & ->). exists v. split; [exact Hin|].
    apply startswith_iff_app. now exists r.
Qed.

Lemma startswith_Error_no_exito (m : string) :
  PyStr.startswith m "E" = true -> lower_startswith_exito m = false.
Proof.
  intros H. apply startswith_iff_app in H. destruct H as [r ->]. reflexivity.
Qed.

Lemma startswith_trans_E (m : string) :
  PyStr.startswith m "Error: No se encontró" = true ->
  PyStr.startswith m "E" = true.
Proof.
  intros H. apply startswith_iff_app in H. destruct H as [r ->]. reflexivity.
Qed.

(** X2: the create service can read every output row of two columns or more,
    by alias or by position; a narrower row ends in [IndexError], and in
    nothing else. *)
Theorem read_out_params_falla_sii_estrecha (row : Row) (e : PyException) :
  read_out_params row = Raise e <->
  (length row < 2)%nat /\ e = IndexError "tuple index out of range".
Proof.
  unfold read_out_params, getitem.
  destruct row as [|[k0 v0] [|[k1 v1] more]]; cbn.
  - split; [intros [= <-]; split; [lia | reflexivity] | intros [_ ->]; reflexivity].
  - destruct (String.eqb_spec k0 "NroCta") as [-> | H0]; cbn.
    + split; [intros [= <-]; split; [lia | reflexivity]
             | intros [_ ->]; reflexivity].
    + split; [intros [= <-]; split; [lia | reflexivity]
             | intros [_ ->]; reflexivity].
  - split; [|intros [Hlen _]; lia].
    destruct (String.eqb k0 "NroCta"), (String.eqb k0 "Mensaje"),
      (String.eqb k1 "NroCta"), (String.eqb k1 "Mensaje");
      cbn; try discriminate;
      destruct (getattr more "NroCta"), (getattr more "Mensaje"); discriminate.
Qed.

(** X3: the listing comprehension validates all rows or none: it gives the
    DTOs, one per row and in order, exactly when every row validates. *)
Theorem validate_rows_Ok_sii_todas (rows : list Row) (dtos : list CuentaDetailsDTO) :
  validate_rows rows = Ok dtos <->
  Forall2 (fun row dto => model_validate row = Ok dto) rows dtos.
Proof.
  revert dtos. induction rows as [|row rest IH]; intros dtos; cbn.
  - split.
    + intros [= <-]. constructor.
    + intros H. inversion H. reflexivity.
  - destruct (model_validate row) as [dto | e] eqn:Hrow.
    + destruct (validate_rows rest) as [ds | e] eqn:Hrest.
      * split.
        -- intros [= <-]. constructor; [exact Hrow | now apply IH].
        -- intros H. inversion H as [|? d ? ds' Hd Hds]; subst.
           apply IH in Hds. congruence.
      * split; [discriminate|].
        intros H. inversion H as [|? d ? ds' Hd Hds]; subst.
        apply IH in Hds. discriminate.
    + split; [discriminate|].
      intros H. inversion H as [|? d ? ds' Hd Hds]; subst. congruence.
Qed.

(** X4: the listing comprehension fails with the exception of the first row
    that does not validate, whatever follows it. *)
Theorem validate_rows_primera_invalida (rows : list Row) (e : PyException) :
  validate_rows rows = Raise e <->
  exists valid row rest,
    rows = (valid ++ row :: rest)%list /\
    Forall (fun r => exists dto, model_validate r = Ok dto) valid /\
    model_validate row = Raise e.
Proof.
  split.
  - induction rows as [|row0 rows IH]; cbn; [discriminate|].
    destruct (model_validate row0) as [dto | e0] eqn:Hrow.
    + destruct (validate_rows rows) as [ds | e1] eqn:Hrest; [discriminate|].
      intros [= ->]. destruct (IH eq_refl) as (valid & row & rest & -> & Hv & Hr).
      exists (row0 :: valid), row, rest. repeat split; auto.
      constructor; [now exists dto | exact Hv].
    + intros [= ->]. exists [], row0, rows. repeat split; auto.
  - intros (valid & row & rest & -> & Hv & Hr).
    induction Hv as [|r valid [dto Hd] _ IH]; cbn.
    + now rewrite Hr.
    + now rewrite Hd, IH.
Qed.

(** X5: the filter the listing service sends is never the empty string: it is
    the filter received, or null when that is null or empty; cleaning twice
    changes nothing. *)
Theorem clean_cod_usu_nunca_vacio (cod_usu_input : option string) :
  clean_cod_usu cod_usu_input <> Some "" /\
  (clean_cod_usu cod_usu_input = None <->
   cod_usu_input = None \/ cod_usu_input = Some "") /\
  (clean_cod_usu cod_usu_input <> None ->
   clean_cod_usu cod_usu_input = cod_usu_input) /\
  clean_cod_usu (clean_cod_usu cod_usu_input) = clean_cod_usu cod_usu_input.
Proof.
  unfold clean_cod_usu, truthy.
  destruct cod_usu_input as [u|]; cbn.
  - destruct (String.eqb_spec u "") as [-> | Hu]; cbn.
    + repeat split; auto; try discriminate. intros H. now contradiction H.
    + destruct (String.eqb_spec u ""); [contradiction|]. cbn.
      repeat split; auto; try congruence.
      intros [H | H]; congruence.
  - repeat split; auto; discriminate.
Qed.

(** ** What the answers of the endpoints imply *)

Arguments begins_with_Exito_any_case m : simpl never.

Lemma insertar_try_Ok datos session sp s' :
  insertar_nueva_cuenta_sp_try datos session = (Ok sp, s') ->
  create_reply session datos (NroCta sp) (Some (MensajeSP sp)) /\
  lower_startswith_exito (MensajeSP sp) = true.
Proof.
  unfold insertar_nueva_cuenta_sp_try, bind, execute, lift, raise, ret. cbn.
  fold (call_insertar datos).
  destruct (server session (events session) (call_insertar datos))
    as [called | e1] eqn:H1; cbn; [|discriminate].
  destruct (server session (Executed (call_insertar datos) :: events session)
              Select_Out_NroCta_Mensaje) as [[|row rest] | e2] eqn:H2; cbn;
    try discriminate.
  destruct (read_out_params row) as [[n [m|]] | e3] eqn:H3; cbn; try discriminate.
  destruct (lower_startswith_exito m) eqn:Hm; cbn; [|discriminate].
  intros [= <- _]. cbn. split; [|exact Hm].
  exists called, row, rest. unfold answers. cbn. auto.
Qed.

Lemma actualizar_try_Ok datos session sp s' :
  actualizar_estado_cuenta_sp_try datos session = (Ok sp, s') ->
  update_reply session datos (Some (MensajeSP sp)) /\
  lower_startswith_exito (MensajeSP sp) = true.
Proof.
  unfold actualizar_estado_cuenta_sp_try, bind, execute, lift, raise, ret. cbn.
  fold (call_actualizar datos).
  destruct (server session (events session) (call_actualizar datos))
    as [called | e1] eqn:H1; cbn; [|discriminate].
  destruct (server session (Executed (call_actualizar datos) :: events session)
              Select_Out_Mensaje) as [[|row rest] | e2] eqn:H2; cbn;
    try discriminate.
  destruct (getattr row "Mensaje") as [[m|]|] eqn:H3; cbn; try discriminate.
  destruct (lower_startswith_exito m) eqn:Hm; cbn; [|discriminate].
  intros [= <- _]. cbn. split; [|exact Hm].
  exists called, row, rest. unfold answers. cbn. auto.
Qed.

(** X6: the create endpoint answers with its model only when the procedure
    ran, its output row was read, and the message in it begins with "Éxito" in
    some letter case; the envelope then repeats that message and account
    number, with status 201 and no result list. *)
Theorem crear_201_solo_si_exito session datos (r : APIResponse) :
  outcome (crear_nueva_cuenta session datos) = Returned r ->
  create_reply session datos (codigo r) (Some (mensaje r)) /\
  begins_with_Exito_any_case (mensaje r) = true /\
  status_code r = 201%Z /\ result r = None.
Proof.
  unfold crear_nueva_cuenta, insertar_nueva_cuenta_sp, except_rollback.
  destruct (insertar_nueva_cuenta_sp_try datos session) as [[sp | e] s1] eqn:Hrun;
    cbn.
  - intros [= <-]. destruct (insertar_try_Ok _ _ _ _ Hrun) as [Hreply Hm].
    split; [exact Hreply | split; [|split; reflexivity]].
    rewrite <- lower_startswith_exito_spec. exact Hm.
  - destruct (isinstance_ValueError e); cbn; discriminate.
Qed.

(** X7: the update endpoint answers with its model only when the procedure
    ran and the message of its output row begins with "Éxito" in some letter
    case. *)
Theorem actualizar_200_solo_si_exito session datos (r : APIResponse) :
  outcome (actualizar_estado session datos) = Returned r ->
  update_reply session datos (Some (mensaje r)) /\
  begins_with_Exito_any_case (mensaje r) = true /\
  result r = None.
Proof.
  unfold actualizar_estado, actualizar_estado_cuenta_sp, except_rollback.
  destruct (actualizar_estado_cuenta_sp_try datos session) as [[sp | e] s1] eqn:Hrun;
    cbn.
  - intros [= <-]. destruct (actualizar_try_Ok _ _ _ _ Hrun) as [Hreply Hm].
    split; [exact Hreply | split; [|reflexivity]].
    rewrite <- lower_startswith_exito_spec. exact Hm.
  - destruct (isinstance_ValueError e); cbn; discriminate.
Qed.

(** X8: a reply of the update procedure that starts with
    "Error: No se encontró" is answered with 404 and the reply as [mensaje];
    such a text is never a success. *)
Theorem actualizar_no_encontrado_404 session datos (m : string) :
  update_reply session datos (Some m) ->
  PyStr.startswith m "Error: No se encontró" = true ->
  lower_startswith_exito m = false /\
  outcome (actualizar_estado session datos) =
    HTTPException 404 {| mensaje := m; codigo := Some "";
                         status_code := 404; result := None |}.
Proof.
  intros Hreply Hm.
  pose proof (startswith_Error_no_exito m (startswith_trans_E m Hm)) as Hno.
  split; [exact Hno|].
  pose proof (actualizar_try_on_reply _ _ _ Hreply) as Hrun.
  unfold actualizar_estado, actualizar_estado_cuenta_sp, except_rollback.
  rewrite Hrun, Hno. cbn -[PyStr.startswith]. rewrite Hm. reflexivity.
Qed.

(** X9: the update endpoint answers 404 only for a [ValueError] whose text
    starts with "Error: No se encontró", and that text is the [mensaje]. *)
Theorem actualizar_404_solo_no_encontrado session datos (detail : APIResponse) :
  outcome (actualizar_estado session datos) = HTTPException 404 detail ->
  PyStr.startswith (mensaje detail) "Error: No se encontró" = true /\
  exists e, fst (actualizar_estado_cuenta_sp datos session) = Raise e /\
            isinstance_ValueError e = true /\ exc_str e = mensaje detail.
Proof.
  unfold actualizar_estado.
  destruct (actualizar_estado_cuenta_sp datos session) as [[sp | e] s1];
    cbn -[PyStr.startswith]; [discriminate|].
  destruct (isinstance_ValueError e) eqn:Hv; cbn -[PyStr.startswith].
  - destruct (PyStr.startswith (exc_str e) "Error: No se encontró") eqn:Hp;
      intros H; [|discriminate H].
    injection H as <-. split; [exact Hp | exists e; auto].
  - discriminate.
Qed.

(** X10: whatever the database does, an endpoint function that is called
    ends with one of its own statuses: [crear_nueva_cuenta] with 201, 400 or
    500, [listar_cuentas], which has no handler for business errors, with 200
    or 500, [actualizar_estado] with 200, 400, 404 or 500. *)
Theorem status_por_endpoint session :
  (forall datos,
      In (http_status crearCuentasBancarias
            (outcome (crear_nueva_cuenta session datos))) [201; 400; 500]%Z) /\
  (forall cod_usu,
      In (http_status getCuentasBancarias
            (outcome (listar_cuentas session cod_usu))) [200; 500]%Z) /\
  (forall datos,
      In (http_status updateEstadoCuenta
            (outcome (actualizar_estado session datos))) [200; 400; 404; 500]%Z).
Proof.
  split; [|split]; intros x;
    unfold crear_nueva_cuenta, listar_cuentas, actualizar_estado.
  - destruct (insertar_nueva_cuenta_sp x session) as [[r | e] s'];
      [|destruct (isinstance_ValueError e)]; cbn; auto.
  - destruct (listar_cuentas_sp x session) as [[r | e] s']; cbn; auto.
    destruct (_ && _); cbn; auto.
  - destruct (actualizar_estado_cuenta_sp x session) as [[r | e] s'];
      [|destruct (isinstance_ValueError e);
        [destruct (PyStr.startswith (exc_str e) _)|]]; cbn; auto.
Qed.

(** X11: a NULL message in the output row is not a business error: the create
    and the update service end in [AttributeError] and the endpoints answer
    500 with the fixed envelope. *)
Theorem mensaje_null_500 session :
  (forall datos nro,
      create_reply session datos nro None ->
      fst (insertar_nueva_cuenta_sp datos session) = Raise NoneType_has_no_lower /\
      outcome (crear_nueva_cuenta session datos) =
        HTTPException 500 (internal_error_envelope crearCuentasBancarias)) /\
  (forall datos,
      update_reply session datos None ->
      fst (actualizar_estado_cuenta_sp datos session) = Raise NoneType_has_no_lower /\
      outcome (actualizar_estado session datos) =
        HTTPException 500 (internal_error_envelope updateEstadoCuenta)).
Proof.
  split.
  - intros datos nro (called & row & rest & H1 & H2 & H3).
    unfold answers in H1, H2. cbn in H1, H2.
    unfold crear_nueva_cuenta, insertar_nueva_cuenta_sp, except_rollback,
      insertar_nueva_cuenta_sp_try, bind, execute, lift, raise.
    fold (call_insertar datos). rewrite H1. cbn. rewrite H2. cbn. rewrite H3.
    cbn. split; reflexivity.
  - intros datos (called & row & rest & H1 & H2 & H3).
    unfold answers in H1, H2. cbn in H1, H2.
    unfold actualizar_estado, actualizar_estado_cuenta_sp, except_rollback,
      actualizar_estado_cuenta_sp_try, bind, execute, lift, raise.
    fold (call_actualizar datos). rewrite H1. cbn. rewrite H2. cbn. rewrite H3.
    cbn. split; reflexivity.
Qed.

(** ** Sessions and console across the endpoints *)

Lemma insertar_try_sent datos session :
  exists sent,
    In sent (round_trips (POST_crear datos)) /\
    events (snd (insertar_nueva_cuenta_sp_try datos session)) =
      (map Executed sent ++ events session)%list.
Proof.
  unfold insertar_nueva_cuenta_sp_try, bind, execute, lift, raise, ret. cbn.
  fold (call_insertar datos).
  destruct (server session (events session) (call_insertar datos)); cbn.
  - exists [Select_Out_NroCta_Mensaje; call_insertar datos]. run_block; auto.
  - exists [call_insertar datos]. auto.
Qed.

Lemma actualizar_try_sent datos session :
  exists sent,
    In sent (round_trips (PATCH_actualizar datos)) /\
    events (snd (actualizar_estado_cuenta_sp_try datos session)) =
      (map Executed sent ++ events session)%list.
Proof.
  unfold actualizar_estado_cuenta_sp_try, bind, execute, lift, raise, ret. cbn.
  fold (call_actualizar datos).
  destruct (server session (events session) (call_actualizar datos)); cbn.
  - exists [Select_Out_Mensaje; call_actualizar datos]. run_block; auto.
  - exists [call_actualizar datos]. auto.
Qed.

Lemma listar_try_sent p_cod_usu session :
  events (snd (listar_cuentas_sp_try p_cod_usu session)) =
    (Executed (Call_sp_ListarCuentas p_cod_usu) :: events session)%list.
Proof.
  unfold listar_cuentas_sp_try, bind, execute, lift. cbn. run_block; auto.
Qed.

(** X12: an endpoint leaves the session rolled back exactly when it raises:
    after a returned model the session has only the statements sent, after an
    [HTTPException] of any status a rollback follows them; the statements are
    the [CALL] alone or the [CALL] and then the output [SELECT], and the
    listing sends its one [CALL] with the cleaned filter. *)
Theorem rollback_sii_error session q :
  exists sent,
    In sent (round_trips q) /\
    events (session_after (handle session q)) =
      (events_of (outcome (handle session q)) sent ++ events session)%list.
Proof.
  destruct q as [datos | cod_usu | datos]; cbn [handle].
  - destruct (insertar_try_sent datos session) as (sent & Hin & Hev).
    exists sent. split; [exact Hin|].
    unfold crear_nueva_cuenta, insertar_nueva_cuenta_sp, except_rollback.
    destruct (insertar_nueva_cuenta_sp_try datos session) as [[sp | e] s1];
      cbn in *; [|destruct (isinstance_ValueError e); cbn]; now rewrite Hev.
  - exists [Call_sp_ListarCuentas (clean_cod_usu cod_usu)]. split; [now left|].
    pose proof (listar_try_sent (clean_cod_usu cod_usu) session) as Hev.
    unfold listar_cuentas, listar_cuentas_sp, except_rollback.
    destruct (listar_cuentas_sp_try (clean_cod_usu cod_usu) session)
      as [[dtos | e] s1]; cbn in *; [destruct (_ && _); cbn|]; now rewrite Hev.
  - destruct (actualizar_try_sent datos session) as (sent & Hin & Hev).
    exists sent. split; [exact Hin|].
    unfold actualizar_estado, actualizar_estado_cuenta_sp, except_rollback.
    destruct (actualizar_estado_cuenta_sp_try datos session) as [[sp | e] s1];
      cbn -[PyStr.startswith] in *;
      [|destruct (isinstance_ValueError e); cbn -[PyStr.startswith]];
      now rewrite Hev.
Qed.

(** X13: an endpoint writes to the console exactly when it answers 500, and
    then the two lines are the print and the traceback of the exception the
    service ended in; business errors and successes leave no trace there. *)
Theorem consola_sii_500 session q :
  (console (handle session q) = [] <->
   http_status (route_of q) (outcome (handle session q)) <> 500%Z) /\
  (forall line, In line (console (handle session q)) ->
     exists e, service_exception session q = Some e /\
               (line = Traceback e \/ exists label, line = Print label e)).
Proof.
  destruct q as [datos | cod_usu | datos]; cbn;
    unfold crear_nueva_cuenta, listar_cuentas, actualizar_estado.
  - destruct (insertar_nueva_cuenta_sp datos session) as [[r | e] s'];
      [|destruct (isinstance_ValueError e)]; cbn.
    + split; [split; [discriminate | reflexivity] | contradiction].
    + split; [split; [discriminate | reflexivity] | contradiction].
    + split; [split; [discriminate | intros H; now contradiction H]|].
      intros line [<- | [<- | []]]; exists e; eauto.
  - destruct (listar_cuentas_sp cod_usu session) as [[r | e] s']; cbn.
    + destruct (_ && _); cbn;
        (split; [split; [discriminate | reflexivity] | contradiction]).
    + split; [split; [discriminate | intros H; now contradiction H]|].
      intros line [<- | [<- | []]]; exists e; eauto.
  - destruct (actualizar_estado_cuenta_sp datos session) as [[r | e] s'];
      [|destruct (isinstance_ValueError e);
        [destruct (PyStr.startswith (exc_str e) _)|]]; cbn.
    + split; [split; [discriminate | reflexivity] | contradiction].
    + split; [split; [discriminate | reflexivity] | contradiction].
    + split; [split; [discriminate | reflexivity] | contradiction].
    + split; [split; [discriminate | intros H; now contradiction H]|].
      intros line [<- | [<- | []]]; exists e; eauto.
Qed.

(** X14: when the [CALL] of a create or an update raises, the service raises
    that same exception after a rollback, and the output [SELECT] is not
    sent. *)
Theorem call_fallido_sin_select session (e : PyException) :
  (forall datos,
      answers session [] (call_insertar datos) (Raise e) ->
      insertar_nueva_cuenta_sp datos session =
        (Raise e, record RolledBack (record (Executed (call_insertar datos)) session))) /\
  (forall datos,
      answers session [] (call_actualizar datos) (Raise e) ->
      actualizar_estado_cuenta_sp datos session =
        (Raise e, record RolledBack (record (Executed (call_actualizar datos)) session))).
Proof.
  split; intros datos H; unfold answers in H; cbn in H.
  - unfold insertar_nueva_cuenta_sp, except_rollback, insertar_nueva_cuenta_sp_try,
      bind, execute.
    fold (call_insertar datos). rewrite H. reflexivity.
  - unfold actualizar_estado_cuenta_sp, except_rollback,
      actualizar_estado_cuenta_sp_try, bind, execute.
    fold (call_actualizar datos). rewrite H. reflexivity.
Qed.

(** ** The listing endpoint beyond the empty case *)

Lemma validate_rows_length (rows : list Row) (dtos : list CuentaDetailsDTO) :
  validate_rows rows = Ok dtos -> length dtos = length rows.
Proof.
  revert dtos. induction rows as [|row rest IH]; intros dtos; cbn.
  - intros [= <-]. reflexivity.
  - destruct (model_validate row); [|discriminate].
    destruct (validate_rows rest) as [ds|]; [|discriminate].
    intros [= <-]. cbn. now rewrite (IH ds eq_refl).
Qed.

Lemma clean_cod_usu_None_test (cod_usu : option string) :
  clean_cod_usu cod_usu = None ->
  match cod_usu with Some _ => true | None => false end
    && negb match cod_usu with Some u => String.eqb u "" | None => false end
  = false.
Proof.
  unfold clean_cod_usu, truthy. destruct cod_usu as [u|]; cbn; [|reflexivity].
  destruct (String.eqb u ""); cbn; [reflexivity | discriminate].
Qed.

(** X15: a listing whose rows all validate, and which is not the empty answer
    to a real filter, answers 200 with code "LIST-OK", the DTOs in the order
    of the rows, and a message that counts the rows of the procedure; without
    a filter that holds for zero rows too. *)
Theorem listar_exito session cod_usu (rows : list Row) (dtos : list CuentaDetailsDTO) :
  answers session [] (Call_sp_ListarCuentas (clean_cod_usu cod_usu)) (Ok rows) ->
  validate_rows rows = Ok dtos ->
  (rows = [] -> clean_cod_usu cod_usu = None) ->
  outcome (listar_cuentas session cod_usu) =
    Returned {| mensaje := "Consulta exitosa. Se encontraron "
                             ++ PyStr.str_of_nat (length rows) ++ " cuentas.";
                codigo := Some "LIST-OK";
                status_code := 200;
                result := Some dtos |}.
Proof.
  intros Hrows Hval Hfilter. unfold answers in Hrows. cbn in Hrows.
  pose proof (validate_rows_length _ _ Hval) as Hlen.
  unfold listar_cuentas, listar_cuentas_sp, except_rollback,
    listar_cuentas_sp_try, bind, execute, lift.
  rewrite Hrows. cbn. rewrite Hval. cbn.
  destruct dtos as [|dto dtos].
  - destruct rows; [|discriminate Hlen].
    rewrite <- andb_assoc. cbn [andb].
    rewrite (clean_cod_usu_None_test cod_usu (Hfilter eq_refl)). reflexivity.
  - cbn [andb]. rewrite <- Hlen. reflexivity.
Qed.

(** X16: when the listing endpoint returns, its code is "LIST-OK-EMPTY"
    exactly when there is no row and the filter is neither null nor empty, and
    "LIST-OK" otherwise; the result list is present in both cases. *)
Theorem listar_codigo session cod_usu (r : APIResponse) :
  outcome (listar_cuentas session cod_usu) = Returned r ->
  exists dtos,
    result r = Some dtos /\
    fst (listar_cuentas_sp cod_usu session) = Ok dtos /\
    (codigo r = Some "LIST-OK-EMPTY" <->
     dtos = [] /\ clean_cod_usu cod_usu <> None) /\
    (codigo r = Some "LIST-OK" <->
     ~ (dtos = [] /\ clean_cod_usu cod_usu <> None)).
Proof.
  unfold listar_cuentas.
  destruct (listar_cuentas_sp cod_usu session) as [[dtos | e] s1]; cbn;
    [|discriminate].
  assert (Hclean : clean_cod_usu cod_usu <> None <->
                   match cod_usu with Some _ => true | None => false end
                   && negb match cod_usu with
                           | Some u => String.eqb u ""
                           | None => false
                           end = true).
  { unfold clean_cod_usu, truthy. destruct cod_usu as [u|]; cbn.
    - destruct (String.eqb u ""); cbn; intuition (try discriminate; congruence).
    - intuition (try discriminate; congruence). }
  rewrite <- andb_assoc.
  destruct (match cod_usu with Some _ => true | None => false end
            && negb match cod_usu with
                    | Some u => String.eqb u ""
                    | None => false
                    end) eqn:Hc;
    destruct dtos as [|dto dtos]; cbn; intros [= <-]; cbn;
    eexists; (split; [reflexivity|]); (split; [reflexivity|]);
    intuition (try discriminate; try congruence).
Qed.

(** X17: one row that does not validate turns the whole listing into a 500
    with the fixed envelope, also when the validation error is a
    [ValueError]; the service raises that error after sending the [CALL] and
    rolling back. *)
Theorem listar_fila_invalida_500 session cod_usu (rows : list Row) (e : PyException) :
  answers session [] (Call_sp_ListarCuentas (clean_cod_usu cod_usu)) (Ok rows) ->
  validate_rows rows = Raise e ->
  listar_cuentas_sp cod_usu session =
    (Raise e,
     record RolledBack
       (record (Executed (Call_sp_ListarCuentas (clean_cod_usu cod_usu))) session)) /\
  outcome (listar_cuentas session cod_usu) =
    HTTPException 500 (internal_error_envelope getCuentasBancarias).
Proof.
  intros Hrows Hval. unfold answers in Hrows. cbn in Hrows.
  unfold listar_cuentas, listar_cuentas_sp, except_rollback,
    listar_cuentas_sp_try, bind, execute, lift.
  rewrite Hrows. cbn. rewrite Hval. cbn. split; reflexivity.
Qed.

(** ** Output rows that cannot be read *)

(** X18: an output row the service cannot read is an internal error: for a
    create that is a row of fewer than two columns, for an update any row
    without the alias [Mensaje], which is not looked up by position. *)
Theorem fila_ilegible_500 session :
  (forall datos called row rest,
      answers session [] (call_insertar datos) (Ok called) ->
      answers session [call_insertar datos] Select_Out_NroCta_Mensaje
        (Ok (row :: rest)) ->
      (length row < 2)%nat ->
      outcome (crear_nueva_cuenta session datos) =
        HTTPException 500 (internal_error_envelope crearCuentasBancarias)) /\
  (forall datos called row rest,
      answers session [] (call_actualizar datos) (Ok called) ->
      answers session [call_actualizar datos] Select_Out_Mensaje
        (Ok (row :: rest)) ->
      getattr row "Mensaje" = None ->
      outcome (actualizar_estado session datos) =
        HTTPException 500 (internal_error_envelope updateEstadoCuenta)).
Proof.
  split; intros datos called row rest H1 H2 H3;
    unfold answers in H1, H2; cbn in H1, H2.
  - assert (Hrow : read_out_params row = Raise (IndexError "tuple index out of range")).
    { unfold read_out_params, getitem.
      destruct row as [|[k0 v0] [|[k1 v1] more]]; cbn in *; try lia; auto.
      destruct (String.eqb_spec k0 "NroCta") as [-> | H0]; reflexivity. }
    unfold crear_nueva_cuenta, insertar_nueva_cuenta_sp, except_rollback,
      insertar_nueva_cuenta_sp_try, bind, execute, lift, raise.
    fold (call_insertar datos). rewrite H1. cbn. rewrite H2. cbn. rewrite Hrow.
    reflexivity.
  - unfold actualizar_estado, actualizar_estado_cuenta_sp, except_rollback,
      actualizar_estado_cuenta_sp_try, bind, execute, lift, raise.
    fold (call_actualizar datos). rewrite H1. cbn. rewrite H2. cbn. rewrite H3.
    reflexivity.
Qed.

(** ** The result list *)

(** X19: the envelope carries a result list exactly on a successful listing;
    every create and update response, and every error response, has none. *)
Theorem result_sii_listado_exitoso session q :
  result (envelope (outcome (handle session q))) <> None <->
  route_of q = getCuentasBancarias /\
  http_status (route_of q) (outcome (handle session q)) = 200%Z.
Proof.
  destruct q as [datos | cod_usu | datos]; cbn;
    unfold crear_nueva_cuenta, listar_cuentas, actualizar_estado.
  - destruct (insertar_nueva_cuenta_sp datos session) as [[r | e] s'];
      [|destruct (isinstance_ValueError e)]; cbn;
      (split; [intros H; now contradiction H | intros [H _]; discriminate H]).
  - destruct (listar_cuentas_sp cod_usu session) as [[r | e] s']; cbn.
    + destruct (_ && _); cbn; (split; [auto | discriminate]).
    + split; [intros H; now contradiction H | intros [_ H]; discriminate H].
  - destruct (actualizar_estado_cuenta_sp datos session) as [[r | e] s'];
      [|destruct (isinstance_ValueError e);
        [destruct (PyStr.startswith (exc_str e) _)|]]; cbn;
      (split; [intros H; now contradiction H | intros [H _]; discriminate H]).
Qed.

(** ** Any ValueError is a business error *)


End Accounts.

(** Outside the section the parameters are inferred where a session, a
    request or an envelope fixes them. *)
Arguments TipoCta {Decimal} c.
Arguments SaldoInicial {Decimal} c.
Arguments CodUsu {Decimal} c.
Arguments events {Decimal} s.
Arguments server {Decimal} s.
Arguments answers {Decimal} session done q r.
Arguments create_reply {Decimal} session datos nro msg.
Arguments update_reply {Decimal} session datos msg.
Arguments create_no_output_row {Decimal} session datos.
Arguments update_no_output_row {Decimal} session datos.
Arguments insertar_nueva_cuenta_sp {Decimal} datos _.
Arguments actualizar_estado_cuenta_sp {Decimal} datos _.
Arguments listar_cuentas_sp {Decimal CuentaDetailsDTO} model_validate cod_usu_input _.
Arguments mensaje {CuentaDetailsDTO} a.
Arguments codigo {CuentaDetailsDTO} a.
Arguments status_code {CuentaDetailsDTO} a.
Arguments result {CuentaDetailsDTO} a.
Arguments Returned {CuentaDetailsDTO} r.
Arguments HTTPException {CuentaDetailsDTO} code detail.
Arguments outcome {Decimal CuentaDetailsDTO} h.
Arguments session_after {Decimal CuentaDetailsDTO} h.
Arguments console {Decimal CuentaDetailsDTO} h.
Arguments envelope {CuentaDetailsDTO} o.
Arguments http_status {CuentaDetailsDTO} r o.
Arguments crear_nueva_cuenta {Decimal} CuentaDetailsDTO session datos_cuenta.
Arguments listar_cuentas {Decimal CuentaDetailsDTO} model_validate session cod_usu.
Arguments actualizar_estado {Decimal} CuentaDetailsDTO session datos_actualizacion.
Arguments handle {Decimal CuentaDetailsDTO} model_validate session q.
Arguments service_exception {Decimal CuentaDetailsDTO} model_validate session q.
Arguments route_of {Decimal} q.
Arguments POST_crear {Decimal} datos_cuenta.
Arguments GET_listar {Decimal} cod_usu.
Arguments reaches_except_Exception {Decimal} q e.
Arguments declared_by_procedure {Decimal} session q e.
Arguments Executed {Decimal} q.
Arguments RolledBack {Decimal}.

(** ** The endpoints on concrete sessions *)

Example lower_Exito : PyStr.lower "Éxito: cuenta creada" = "éxito: cuenta creada".
Proof. reflexivity. Qed.

Example lower_EXITO : PyStr.lower "ÉXITO" = "éxito".
Proof. reflexivity. Qed.

Example str_of_nat_12 : PyStr.str_of_nat 12 = "12".
Proof. reflexivity. Qed.

Example str_of_nat_0 : PyStr.str_of_nat 0 = "0".
Proof. reflexivity. Qed.

(** A capital I with dot (U+0130) lowers to "i" and a combining dot, and a
    decomposed "É" keeps its plain "e": neither spells "éxito". *)
Example Exito_dotted_I : lower_startswith_exito "Éxİto" = false.
Proof. reflexivity. Qed.

Example Exito_decomposed : lower_startswith_exito "Éxito" = false.
Proof. reflexivity. Qed.

(** A NULL message has no [lower]: the create endpoint answers 500. *)
Example crear_mensaje_null :
  outcome (crear_nueva_cuenta Row (answering Z [out_row (Some "4001000123") None])
             (cuenta_de Z "U0001" 1500%Z)) =
    HTTPException 500 {| mensaje := "Ocurrió un error interno del servidor.";
                         codigo := Some "";
                         status_code := 500; result := None |}.
Proof. reflexivity. Qed.

(** Output columns without the aliases are read by position. *)
Example crear_por_posicion :
  outcome (crear_nueva_cuenta Row
             (answering Z [[("@p_Out_NroCta", Some "4001000123");
                            ("@p_Out_Message", Some "Éxito: Cuenta creada.")]])
             (cuenta_de Z "U0001" 1500%Z)) =
    Returned {| mensaje := "Éxito: Cuenta creada.";
                codigo := Some "4001000123";
                status_code := 201; result := None |}.
Proof. reflexivity. Qed.

(** The create and update endpoints take any [ValueError] for a business
    error, also one the driver raised. *)
Example crear_ValueError_del_driver :
  outcome (crear_nueva_cuenta Row
             (failing Z (mkExc (ForeignError "DataError" true) "bad bind value"))
             (cuenta_de Z "U0001" 1500%Z)) =
    HTTPException 400 {| mensaje := "bad bind value";
                         codigo := Some "";
                         status_code := 400; result := None |}.
Proof. reflexivity. Qed.

Example listar_dos_cuentas :
  outcome (listar_cuentas (fun row : Row => Ok row)
             (answering Z [[("NroCta", Some "4001000123")];
                           [("NroCta", Some "4001000124")]]) None) =
    Returned {| mensaje := "Consulta exitosa. Se encontraron 2 cuentas.";
                codigo := Some "LIST-OK";
                status_code := 200;
                result := Some [[("NroCta", Some "4001000123")];
                                [("NroCta", Some "4001000124")]] |}.
Proof. reflexivity. Qed.

(** The events of a failed and of a successful create, latest first. *)
Example crear_error_events :
  events (session_after (crear_nueva_cuenta Row (banco Z) (cuenta_de Z "" 1500%Z))) =
    [RolledBack;
     Executed (Select_Out_NroCta_Mensaje Z);
     Executed (Call_sp_InsertarNuevaCuenta Z "AH" "PEN" 1500%Z "")].
Proof. reflexivity. Qed.

Example crear_exito_events :
  events (session_after
            (crear_nueva_cuenta Row (banco Z) (cuenta_de Z "U0001" 1500%Z))) =
    [Executed (Select_Out_NroCta_Mensaje Z);
     Executed (Call_sp_InsertarNuevaCuenta Z "AH" "PEN" 1500%Z "U0001")].
Proof. reflexivity. Qed.

(** ** Witnesses *)

Ltac reply_holds :=
  unfold create_reply, update_reply, create_no_output_row, update_no_output_row,
    answers; cbn; repeat eexists.

Lemma crear_exito_201_witness :
  create_reply (banco Z) (cuenta_de Z "U0001" 1500%Z)
    (Some "4001000123") (Some "ÉXITO: Cuenta creada.") /\
  begins_with_Exito_any_case "ÉXITO: Cuenta creada." = true /\
  outcome (crear_nueva_cuenta Row (banco Z) (cuenta_de Z "U0001" 1500%Z)) =
    Returned {| mensaje := "ÉXITO: Cuenta creada.";
                codigo := Some "4001000123";
                status_code := 201; result := None |}.
Proof.
  assert (H : create_reply (banco Z) (cuenta_de Z "U0001" 1500%Z)
                (Some "4001000123") (Some "ÉXITO: Cuenta creada."))
    by reply_holds.
  split; [exact H | split; [reflexivity|]].
  exact (proj1 (proj1 (crear_exito_201 Z Row _ _ _ _ H) eq_refl)).
Defined.

Lemma crear_error_400_witness :
  create_reply (banco Z) (cuenta_de Z "" 1500%Z)
    None (Some "Error: El usuario no existe.") /\
  begins_with_Exito_any_case "Error: El usuario no existe." = false /\
  outcome (crear_nueva_cuenta Row (banco Z) (cuenta_de Z "" 1500%Z)) =
    HTTPException 400 {| mensaje := "Error: El usuario no existe.";
                         codigo := Some "";
                         status_code := 400; result := None |}.
Proof.
  assert (H : create_reply (banco Z) (cuenta_de Z "" 1500%Z)
                None (Some "Error: El usuario no existe."))
    by reply_holds.
  split; [exact H | split; [reflexivity|]].
  exact (proj1 (proj2 (crear_error_400 Z Row _ _ _ _ H eq_refl))).
Defined.

Lemma actualizar_error_404_400_witness :
  (update_reply (banco Z) (bloqueo_de "0000000000")
     (Some "Error: No se encontró la cuenta.") /\
   outcome (actualizar_estado Row (banco Z) (bloqueo_de "0000000000")) =
     HTTPException 404 {| mensaje := "Error: No se encontró la cuenta.";
                          codigo := Some "";
                          status_code := 404; result := None |}) /\
  (update_reply (answering Z [[("Mensaje", Some "Error: Estado no permitido.")]])
     (bloqueo_de "4001000123") (Some "Error: Estado no permitido.") /\
   outcome (actualizar_estado Row
              (answering Z [[("Mensaje", Some "Error: Estado no permitido.")]])
              (bloqueo_de "4001000123")) =
     HTTPException 400 {| mensaje := "Error: Estado no permitido.";
                          codigo := Some "";
                          status_code := 400; result := None |}).
Proof.
  assert (H1 : update_reply (banco Z) (bloqueo_de "0000000000")
                 (Some "Error: No se encontró la cuenta."))
    by reply_holds.
  assert (H2 : update_reply
                 (answering Z [[("Mensaje", Some "Error: Estado no permitido.")]])
                 (bloqueo_de "4001000123") (Some "Error: Estado no permitido."))
    by reply_holds.
  split; (split; [assumption|]).
  - exact (proj1 (actualizar_error_404_400 Z Row _ _ _ H1 eq_refl)).
  - exact (proj1 (actualizar_error_404_400 Z Row _ _ _ H2 eq_refl)).
Defined.

Lemma listar_filtro_sin_filas_witness :
  "U0001" <> "" /\
  answers (answering Z []) [] (Call_sp_ListarCuentas Z (Some "U0001")) (Ok []) /\
  outcome (listar_cuentas (fun row => Ok row) (answering Z []) (Some "U0001")) =
    Returned {| mensaje := "No se encontraron cuentas para el usuario: U0001.";
                codigo := Some "LIST-OK-EMPTY";
                status_code := 200; result := Some [] |}.
Proof.
  assert (Hu : "U0001" <> "") by discriminate.
  split; [exact Hu | split; [reflexivity|]].
  exact (proj1 (listar_filtro_sin_filas Z Row (fun row => Ok row)
                  (answering Z []) "U0001" Hu eq_refl)).
Defined.



Lemma sin_fila_de_salida_500_witness :
  create_no_output_row (answering Z []) (cuenta_de Z "U0001" 1500%Z) /\
  update_no_output_row (answering Z []) (bloqueo_de "4001000123") /\
  http_status (crearCuentasBancarias)
    (outcome (crear_nueva_cuenta Row (answering Z []) (cuenta_de Z "U0001" 1500%Z)))
    = 500%Z /\
  http_status (updateEstadoCuenta)
    (outcome (actualizar_estado Row (answering Z []) (bloqueo_de "4001000123")))
    = 500%Z.
Proof.
  assert (H1 : create_no_output_row (answering Z []) (cuenta_de Z "U0001" 1500%Z))
    by reply_holds.
  assert (H2 : update_no_output_row (answering Z []) (bloqueo_de "4001000123"))
    by reply_holds.
  split; [exact H1 | split; [exact H2 | split]].
  - destruct (proj1 (sin_fila_de_salida_500 Z Row (answering Z [])) _ H1)
      as (e & _ & _ & _ & H). exact H.
  - destruct (proj2 (sin_fila_de_salida_500 Z Row (answering Z [])) _ H2)
      as (e & _ & _ & _ & H). exact H.
Defined.

Lemma actualizar_codigo_es_nro_cta_witness :
  outcome (actualizar_estado Row (banco Z) (bloqueo_de "4001000123")) =
    Returned {| mensaje := "Éxito: Estado actualizado.";
                codigo := Some "4001000123";
                status_code := 200; result := None |} /\
  codigo {| mensaje := "Éxito: Estado actualizado.";
            codigo := Some "4001000123";
            status_code := 200; result := @None (list Row) |} =
    Some (nro_cta (bloqueo_de "4001000123")).
Proof.
  split; [reflexivity|].
  exact (proj1 (actualizar_codigo_es_nro_cta Z Row (banco Z)
                  (bloqueo_de "4001000123") _ eq_refl)).
Defined.

(** ** Witnesses of the further properties *)

Arguments call_insertar {Decimal} datos.
Arguments validate_rows {CuentaDetailsDTO} model_validate results.

Lemma crear_201_solo_si_exito_witness :
  outcome (crear_nueva_cuenta Row (banco Z) (cuenta_de Z "U0001" 1500%Z)) =
    Returned {| mensaje := "ÉXITO: Cuenta creada.";
                codigo := Some "4001000123";
                status_code := 201; result := None |} /\
  create_reply (banco Z) (cuenta_de Z "U0001" 1500%Z)
    (Some "4001000123") (Some "ÉXITO: Cuenta creada.").
Proof.
  split; [reflexivity|].
  exact (proj1 (crear_201_solo_si_exito Z Row (banco Z)
                  (cuenta_de Z "U0001" 1500%Z) _ eq_refl)).
Defined.

Lemma actualizar_200_solo_si_exito_witness :
  outcome (actualizar_estado Row (banco Z) (bloqueo_de "4001000123")) =
    Returned {| mensaje := "Éxito: Estado actualizado.";
                codigo := Some "4001000123";
                status_code := 200; result := None |} /\
  update_reply (banco Z) (bloqueo_de "4001000123")
    (Some "Éxito: Estado actualizado.").
Proof.
  split; [reflexivity|].
  exact (proj1 (actualizar_200_solo_si_exito Z Row (banco Z)
                  (bloqueo_de "4001000123") _ eq_refl)).
Defined.

Lemma actualizar_no_encontrado_404_witness :
  update_reply (banco Z) (bloqueo_de "0000000000")
    (Some "Error: No se encontró la cuenta.") /\
  PyStr.startswith "Error: No se encontró la cuenta." "Error: No se encontró"
    = true /\
  outcome (actualizar_estado Row (banco Z) (bloqueo_de "0000000000")) =
    HTTPException 404 {| mensaje := "Error: No se encontró la cuenta.";
                         codigo := Some "";
                         status_code := 404; result := None |}.
Proof.
  assert (H : update_reply (banco Z) (bloqueo_de "0000000000")
                (Some "Error: No se encontró la cuenta."))
    by reply_holds.
  split; [exact H | split; [reflexivity|]].
  exact (proj2 (actualizar_no_encontrado_404 Z Row _ _ _ H eq_refl)).
Defined.

Lemma actualizar_404_solo_no_encontrado_witness :
  outcome (actualizar_estado Row (banco Z) (bloqueo_de "0000000000")) =
    HTTPException 404 {| mensaje := "Error: No se encontró la cuenta.";
                         codigo := Some "";
                         status_code := 404; result := None |} /\
  PyStr.startswith "Error: No se encontró la cuenta." "Error: No se encontró"
    = true.
Proof.
  split; [reflexivity|].
  exact (proj1 (actualizar_404_solo_no_encontrado Z Row (banco Z)
                  (bloqueo_de "0000000000") _ eq_refl)).
Defined.

Lemma mensaje_null_500_witness :
  create_reply (answering Z [out_row (Some "4001000123") None])
    (cuenta_de Z "U0001" 1500%Z) (Some "4001000123") None /\
  update_reply (answering Z [[("Mensaje", None)]]) (bloqueo_de "4001000123") None /\
  outcome (crear_nueva_cuenta Row (answering Z [out_row (Some "4001000123") None])
             (cuenta_de Z "U0001" 1500%Z)) =
    HTTPException 500 {| mensaje := "Ocurrió un error interno del servidor.";
                         codigo := Some "";
                         status_code := 500; result := None |} /\
  outcome (actualizar_estado Row (answering Z [[("Mensaje", None)]])
             (bloqueo_de "4001000123")) =
    HTTPException 500 {| mensaje := "Ocurrió un error interno del servidor.";
                         codigo := Some "";
                         status_code := 500; result := None |}.
Proof.
  assert (H1 : create_reply (answering Z [out_row (Some "4001000123") None])
                 (cuenta_de Z "U0001" 1500%Z) (Some "4001000123") None)
    by reply_holds.
  assert (H2 : update_reply (answering Z [[("Mensaje", None)]])
                 (bloqueo_de "4001000123") None)
    by reply_holds.
  split; [exact H1 | split; [exact H2 | split]].
  - exact (proj2 (proj1 (mensaje_null_500 Z Row _) _ _ H1)).
  - exact (proj2 (proj2 (mensaje_null_500 Z Row _) _ H2)).
Defined.

Lemma call_fallido_sin_select_witness :
  answers (failing Z conexion_perdida) []
    (call_insertar (cuenta_de Z "U0001" 1500%Z)) (Raise conexion_perdida) /\
  events (snd (insertar_nueva_cuenta_sp (cuenta_de Z "U0001" 1500%Z)
                 (failing Z conexion_perdida))) =
    [RolledBack; Executed (call_insertar (cuenta_de Z "U0001" 1500%Z))].
Proof.
  split; [reflexivity|].
  exact (f_equal (fun r => events (snd r))
           (proj1 (call_fallido_sin_select Z (failing Z conexion_perdida)
                     conexion_perdida)
              (cuenta_de Z "U0001" 1500%Z) eq_refl)).
Defined.

Lemma listar_exito_witness :
  validate_rows valida_cuenta dos_filas = Ok dos_filas /\
  outcome (listar_cuentas valida_cuenta (answering Z dos_filas) (Some "U0001")) =
    Returned {| mensaje := "Consulta exitosa. Se encontraron 2 cuentas.";
                codigo := Some "LIST-OK";
                status_code := 200; result := Some dos_filas |} /\
  outcome (listar_cuentas valida_cuenta (answering Z []) None) =
    Returned {| mensaje := "Consulta exitosa. Se encontraron 0 cuentas.";
                codigo := Some "LIST-OK";
                status_code := 200; result := Some [] |}.
Proof.
  split; [reflexivity | split].
  - refine (listar_exito Z Row valida_cuenta (answering Z dos_filas)
              (Some "U0001") dos_filas dos_filas eq_refl eq_refl _).
    discriminate.
  - exact (listar_exito Z Row valida_cuenta (answering Z []) None [] []
             eq_refl eq_refl (fun _ => eq_refl)).
Defined.

Lemma listar_codigo_witness :
  outcome (listar_cuentas valida_cuenta (answering Z []) (Some "U0001")) =
    Returned {| mensaje := "No se encontraron cuentas para el usuario: U0001.";
                codigo := Some "LIST-OK-EMPTY";
                status_code := 200; result := Some [] |} /\
  exists dtos : list Row,
    Some [] = Some dtos /\
    fst (listar_cuentas_sp valida_cuenta (Some "U0001") (answering Z [])) = Ok dtos.
Proof.
  split; [reflexivity|].
  destruct (listar_codigo Z Row valida_cuenta (answering Z []) (Some "U0001") _
              eq_refl) as (dtos & H1 & H2 & _).
  exists dtos. split; [exact H1 | exact H2].
Defined.

Lemma listar_fila_invalida_500_witness :
  answers (answering Z fila_sin_cuenta) []
    (Call_sp_ListarCuentas Z (Some "U0001")) (Ok fila_sin_cuenta) /\
  isinstance_ValueError
    (mkExc (ForeignError "ValidationError" true)
       "1 validation error for CuentaDetailsDTO") = true /\
  outcome (listar_cuentas valida_cuenta (answering Z fila_sin_cuenta)
             (Some "U0001")) =
    HTTPException 500
      {| mensaje := "Ocurrió un error interno del servidor durante la consulta.";
         codigo := Some "SYS-500";
         status_code := 500; result := None |}.
Proof.
  split; [reflexivity | split; [reflexivity|]].
  exact (proj2 (listar_fila_invalida_500 Z Row valida_cuenta
                  (answering Z fila_sin_cuenta) (Some "U0001") fila_sin_cuenta
                  _ eq_refl eq_refl)).
Defined.

Lemma fila_ilegible_500_witness :
  outcome (crear_nueva_cuenta Row
             (answering Z [[("Mensaje", Some "Éxito: Cuenta creada.")]])
             (cuenta_de Z "U0001" 1500%Z)) =
    HTTPException 500 {| mensaje := "Ocurrió un error interno del servidor.";
                         codigo := Some "";
                         status_code := 500; result := None |} /\
  outcome (actualizar_estado Row
             (answering Z [[("@p_Out_Message", Some "Éxito: Estado actualizado.")]])
             (bloqueo_de "4001000123")) =
    HTTPException 500 {| mensaje := "Ocurrió un error interno del servidor.";
                         codigo := Some "";
                         status_code := 500; result := None |}.
Proof.
  split.
  - refine (proj1 (fila_ilegible_500 Z Row
                     (answering Z [[("Mensaje", Some "Éxito: Cuenta creada.")]]))
              (cuenta_de Z "U0001" 1500%Z)
              [] [("Mensaje", Some "Éxito: Cuenta creada.")] []
              eq_refl eq_refl _).
    cbn. lia.
  - exact (proj2 (fila_ilegible_500 Z Row
                    (answering Z
                       [[("@p_Out_Message", Some "Éxito: Estado actualizado.")]]))
             (bloqueo_de "4001000123")
             [] [("@p_Out_Message", Some "Éxito: Estado actualizado.")] []
             eq_refl eq_refl eq_refl).
Defined.

